(** * dials: the transform from beam vector to detector coordinates

    A shallow embedding of
    [scratch/jmp/dials/geometry/transform/from_beam_vector_to_detector.h]
    and the properties of its constructor, its scalar [apply] and its
    array [apply].

    The C++ class works on [scitbx::vec3<double>] and [scitbx::vec2<double>];
    both are templates over the number type.  The embedding keeps that shape:
    the vectors and the transform are written once over a number type
    [NumType], and are then read at three instances,
    - the real numbers [R]: the exact arithmetic the documentation of the
      transform speaks about ("a 3D real vector"), on which the algebraic
      properties are proved;
    - IEEE binary64 ([PrimFloat.float]): the machine [double], on which the
      documented scenarios are run;
    - the real numbers with a recorded division by zero ([checked]), on
      which the guard of the division is checked.
    Rounding, overflow, infinities and NaN are outside the real-number
    reading. *)

From Stdlib Require Import Reals Lra ZArith PrimFloat.
From Stdlib Require Uint63.
From stdpp Require Import base list.

(** ** The number type of the vector templates *)

(** The operations on [NumType] that the header and the vector templates it
    calls really use: conversion of an integer literal ([0], [-1]), [+], [*],
    [/], [std::sqrt] and the comparison [>]. *)
Class NumType (T : Type) : Type := {
  num_of_int : Z -> T;
  num_add : T -> T -> T;
  num_mul : T -> T -> T;
  num_div : T -> T -> T;
  num_sqrt : T -> T;
  num_gt : T -> T -> bool
}.

Declare Scope num_scope.
Delimit Scope num_scope with num.
Infix "+" := num_add : num_scope.
Infix "*" := num_mul : num_scope.
Infix "/" := num_div : num_scope.
Infix ">?" := num_gt (at level 70, no associativity) : num_scope.
Notation "# z" := (num_of_int z%Z) (at level 5, format "# z") : num_scope.

(** ** Exceptions *)

(** Modelled from the spec: [error.h] is not part of the sources at hand.  It
    declares the exception class [error] and the macro [DIALS_ASSERT], which
    throws an [error] when its condition is false.  The transform knows a
    single kind of failure, which the documentation calls GeometryError. *)
Inductive error : Type :=
  | GeometryError.

(** A computation that returns a value or throws. *)
Inductive result (A : Type) : Type :=
  | Ok (a : A)
  | Throw (e : error).

Arguments Ok {A} a.
Arguments Throw {A} e.

Definition ret {A : Type} (a : A) : result A := Ok a.

Definition bind {A B : Type} (m : result A) (k : A -> result B) : result B :=
  match m with
  | Ok a => k a
  | Throw e => Throw e
  end.

(** [try { m } catch (error) { h }] *)
Definition try_catch {A : Type} (m : result A) (h : error -> A) : A :=
  match m with
  | Ok a => a
  | Throw e => h e
  end.

Declare Scope result_scope.
Delimit Scope result_scope with result.
Notation "m ;; k" := (bind m (fun _ => k))
  (at level 100, k at level 200, right associativity) : result_scope.

(** Modelled from the spec: the macro [DIALS_ASSERT] of [error.h]. *)
Definition DIALS_ASSERT (cond : bool) : result unit :=
  if cond then Ok tt else Throw GeometryError.

(** A [for (int i = first; ...; ++i)] loop that runs [count] times over a
    state. *)
Fixpoint for_loop {St : Type} (count : nat) (i : nat)
    (body : nat -> St -> St) (st : St) : St :=
  match count with
  | O => st
  | S count' => for_loop count' (S i) body (body i st)
  end.

Section Transform.

Context {T : Type} `{NumType T}.
Local Open Scope num_scope.

(** ** scitbx vectors *)

Record vec2 : Type := Vec2 { v2_0 : T; v2_1 : T }.
Record vec3 : Type := Vec3 { v3_0 : T; v3_1 : T; v3_2 : T }.

(** [operator*(vec3, vec3)]: the dot product, accumulated from [0] over the
    three components in order. *)
Definition dot (lhs rhs : vec3) : T :=
  #0 + v3_0 lhs * v3_0 rhs + v3_1 lhs * v3_1 rhs + v3_2 lhs * v3_2 rhs.

(** [operator/(vec3, NumType)]: the division of every component. *)
Definition vdiv (lhs : vec3) (rhs : T) : vec3 :=
  Vec3 (v3_0 lhs / rhs) (v3_1 lhs / rhs) (v3_2 lhs / rhs).

(** [operator*(NumType, vec3)]: the product of every component. *)
Definition vscale (lhs : T) (rhs : vec3) : vec3 :=
  Vec3 (lhs * v3_0 rhs) (lhs * v3_1 rhs) (lhs * v3_2 rhs).

(** [operator+(vec3, vec3)]: the sum of the components. *)
Definition vadd (lhs rhs : vec3) : vec3 :=
  Vec3 (v3_0 lhs + v3_0 rhs) (v3_1 lhs + v3_1 rhs) (v3_2 lhs + v3_2 rhs).

Definition length_sq (v : vec3) : T := dot v v.
Definition length (v : vec3) : T := num_sqrt (length_sq v).
Definition normalize (v : vec3) : vec3 := vdiv v (length v).

(** ** The detector coordinate system *)

(** Modelled from the spec: [detector_coordinate_system.h] is not part of the
    sources at hand.  The coordinate system is three vectors, the two axes in
    the plane of the detector and its normal, read by [get_x_axis],
    [get_y_axis] and [get_normal]. *)
Record DetectorCoordinateSystem : Type := {
  get_x_axis : vec3;
  get_y_axis : vec3;
  get_normal : vec3
}.

(** ** The transform *)

Record FromBeamVectorToDetector : Type := {
  x_axis_ : vec3;
  y_axis_ : vec3;
  normal_ : vec3;
  origin_ : vec2;
  distance_ : T
}.

(** The default constructor sets [distance_] to [0.0] and nothing else: the
    vectors are default-constructed, and a default-constructed scitbx vector
    is left uninitialised.  Whatever they hold is passed in. *)
Definition default_ctor (x_axis y_axis normal : vec3) (origin : vec2)
  : FromBeamVectorToDetector :=
  {| x_axis_ := x_axis;
     y_axis_ := y_axis;
     normal_ := normal;
     origin_ := origin;
     distance_ := #0 |}.

(** The constructor from a detector coordinate system. *)
Definition ctor (dcs : DetectorCoordinateSystem) (pixel_size origin : vec2)
    (distance : T) : FromBeamVectorToDetector :=
  {| x_axis_ := vdiv (normalize (get_x_axis dcs)) (v2_0 pixel_size);
     y_axis_ := vdiv (normalize (get_y_axis dcs)) (v2_1 pixel_size);
     normal_ := normalize (get_normal dcs);
     origin_ := origin;
     distance_ := distance |}.

(** The transform [t] with another origin and the rest of its fields. *)
Definition with_origin (t : FromBeamVectorToDetector) (origin : vec2)
  : FromBeamVectorToDetector :=
  {| x_axis_ := x_axis_ t;
     y_axis_ := y_axis_ t;
     normal_ := normal_ t;
     origin_ := origin;
     distance_ := distance_ t |}.

(** [apply(vec3)] *)
Definition apply (t : FromBeamVectorToDetector) (s1 : vec3) : result vec2 :=
  let s1_dot_n := dot s1 (normal_ t) in
  (DIALS_ASSERT (distance_ t * s1_dot_n >? #0) ;;
   ret (Vec2
     (v2_0 (origin_ t) + distance_ t * dot s1 (x_axis_ t) / s1_dot_n)
     (v2_1 (origin_ t) + distance_ t * dot s1 (y_axis_ t) / s1_dot_n))
  )%result.

(** The value the array form stores where the scalar form throws. *)
Definition sentinel : vec2 := Vec2 #(-1) #(-1).

(** [apply(flex_vec3_double)].  [fill] is what the elements of the fresh
    [result] array hold before the loop writes them.  The index of the loop
    stays below [s1.size()]; the branch for an index out of range is there
    for the totality of the list lookup only. *)
Definition apply_flex (fill : vec2) (t : FromBeamVectorToDetector)
    (s1 : list vec3) : list vec2 :=
  let result := replicate (List.length s1) fill in
  for_loop (List.length s1) 0
    (fun i result =>
       match s1 !! i with
       | Some s1_i =>
           <[ i := try_catch (apply t s1_i) (fun _ => sentinel) ]> result
       | None => result
       end)
    result.

End Transform.

Arguments vec2 T : clear implicits.
Arguments vec3 T : clear implicits.
Arguments DetectorCoordinateSystem T : clear implicits.
Arguments FromBeamVectorToDetector T : clear implicits.

(** ** The number types *)

(** [x > y] on the real numbers, as a boolean. *)
Definition Rgtb (x y : R) : bool :=
  if Rgt_dec x y then true else false.

#[export] Instance R_NumType : NumType R := {|
  num_of_int := IZR;
  num_add := Rplus;
  num_mul := Rmult;
  num_div := Rdiv;
  num_sqrt := R_sqrt.sqrt;
  num_gt := Rgtb
|}.

(** The conversion of a C++ [int] to [double]; it is exact, an [int] being
    32 bits wide. *)
Definition float_of_int (z : Z) : float :=
  if (z <? 0)%Z
  then PrimFloat.opp (PrimFloat.of_uint63 (Uint63.of_Z (- z)))
  else PrimFloat.of_uint63 (Uint63.of_Z z).

#[export] Instance float_NumType : NumType float := {|
  num_of_int := float_of_int;
  num_add := PrimFloat.add;
  num_mul := PrimFloat.mul;
  num_div := PrimFloat.div;
  num_sqrt := PrimFloat.sqrt;
  num_gt := fun x y => PrimFloat.ltb y x
|}.

(** Exact arithmetic that records a division by zero: [None] is what a
    division by zero gives, and what every operation on a [None] gives; no
    comparison with a [None] is true. *)
Definition checked : Type := option R.

Definition checked_op (f : R -> R -> R) (x y : checked) : checked :=
  match x, y with
  | Some a, Some b => Some (f a b)
  | _, _ => None
  end.

Definition checked_div (x y : checked) : checked :=
  match x, y with
  | Some a, Some b => if Req_dec_T b 0 then None else Some (a / b)%R
  | _, _ => None
  end.

Definition checked_gt (x y : checked) : bool :=
  match x, y with
  | Some a, Some b => Rgtb a b
  | _, _ => false
  end.

#[export] Instance checked_NumType : NumType checked := {|
  num_of_int := fun z => Some (IZR z);
  num_add := checked_op Rplus;
  num_mul := checked_op Rmult;
  num_div := checked_div;
  num_sqrt := option_map R_sqrt.sqrt;
  num_gt := checked_gt
|}.

(** The change of the number type of a vector and of a transform. *)
Definition vec2_map {A B : Type} (f : A -> B) (v : vec2 A) : vec2 B :=
  Vec2 (f (v2_0 v)) (f (v2_1 v)).

Definition vec3_map {A B : Type} (f : A -> B) (v : vec3 A) : vec3 B :=
  Vec3 (f (v3_0 v)) (f (v3_1 v)) (f (v3_2 v)).

Definition transform_map {A B : Type} (f : A -> B)
    (t : FromBeamVectorToDetector A) : FromBeamVectorToDetector B :=
  {| x_axis_ := vec3_map f (x_axis_ t);
     y_axis_ := vec3_map f (y_axis_ t);
     normal_ := vec3_map f (normal_ t);
     origin_ := vec2_map f (origin_ t);
     distance_ := f (distance_ t) |}.

Definition dcs_map {A B : Type} (f : A -> B)
    (dcs : DetectorCoordinateSystem A) : DetectorCoordinateSystem B :=
  {| get_x_axis := vec3_map f (get_x_axis dcs);
     get_y_axis := vec3_map f (get_y_axis dcs);
     get_normal := vec3_map f (get_normal dcs) |}.

(** The coordinate system [dcs] with its normal turned round. *)
Definition flip_normal (dcs : DetectorCoordinateSystem R)
  : DetectorCoordinateSystem R :=
  {| get_x_axis := get_x_axis dcs;
     get_y_axis := get_y_axis dcs;
     get_normal := vscale (-1)%R (get_normal dcs) |}.

(** The invariant that the callers of the constructor are to keep: the
    three vectors of the coordinate system have length 1 and are orthogonal
    to one another. *)
Definition orthonormal (dcs : DetectorCoordinateSystem R) : Prop :=
  (dot (get_x_axis dcs) (get_x_axis dcs) = 1 /\
   dot (get_y_axis dcs) (get_y_axis dcs) = 1 /\
   dot (get_normal dcs) (get_normal dcs) = 1 /\
   dot (get_x_axis dcs) (get_y_axis dcs) = 0 /\
   dot (get_x_axis dcs) (get_normal dcs) = 0 /\
   dot (get_y_axis dcs) (get_normal dcs) = 0)%R.

(** The point of the detector plane, in the frame of the beam vectors, that
    lies at the pixel coordinates [(px, py)]: the distance along the normal,
    and the offsets from the origin, in pixels times the pixel size, along
    the two axes. *)
Definition detector_point (dcs : DetectorCoordinateSystem R)
    (pixel_size origin : vec2 R) (distance px py : R) : vec3 R :=
  vadd (vscale distance (get_normal dcs))
    (vadd
       (vscale ((px - v2_0 origin) * v2_0 pixel_size)%R (get_x_axis dcs))
       (vscale ((py - v2_1 origin) * v2_1 pixel_size)%R (get_y_axis dcs))).

(** The coordinate system [dcs] with its three vectors scaled. *)
Definition scale_axes (kx ky kn : R) (dcs : DetectorCoordinateSystem R)
  : DetectorCoordinateSystem R :=
  {| get_x_axis := vscale kx (get_x_axis dcs);
     get_y_axis := vscale ky (get_y_axis dcs);
     get_normal := vscale kn (get_normal dcs) |}.

(** The detector whose axes are the axes of the laboratory frame. *)
Definition world_axes {T : Type} `{NumType T} : DetectorCoordinateSystem T :=
  {| get_x_axis := Vec3 #1 #0 #0;
     get_y_axis := Vec3 #0 #1 #0;
     get_normal := Vec3 #0 #0 #1 |}%num.

(** The transform of the documented scenarios. *)
Definition scenario_transform {T : Type} `{NumType T}
  : FromBeamVectorToDetector T :=
  (ctor world_axes (Vec2 #1 #1) (Vec2 #0 #0) #100)%num.

(** * Properties *)

(** ** The error monad and the loop *)

Lemma DIALS_ASSERT_true (cond : bool) :
  DIALS_ASSERT cond = Ok tt <-> cond = true.
Proof. destruct cond; cbn; split; congruence. Qed.

Lemma DIALS_ASSERT_false (cond : bool) :
  DIALS_ASSERT cond = Throw GeometryError <-> cond = false.
Proof. destruct cond; cbn; split; congruence. Qed.

(** What a loop that writes slot [i] of an array from slot [i] of another
    leaves in every slot. *)
Lemma for_loop_lookup {A B : Type} (f : A -> B) (src : list A) :
  let body := fun (i : nat) (dst : list B) =>
    match src !! i with
    | Some a => <[ i := f a ]> dst
    | None => dst
    end in
  forall (count i : nat) (dst : list B) (j : nat),
    List.length dst = List.length src ->
    i + count <= List.length src ->
    for_loop count i body dst !! j =
      if bool_decide (i <= j < i + count) then f <$> src !! j else dst !! j.
Proof.
  intros body count.
  induction count as [|count IH]; intros i dst j Hlen Hbound; cbn [for_loop].
  - rewrite bool_decide_eq_false_2 by lia. reflexivity.
  - destruct (lookup_lt_is_Some_2 src i) as [a Ha]; [lia|].
    assert (Hbody : body i dst = <[ i := f a ]> dst)
      by (unfold body; rewrite Ha; reflexivity).
    rewrite Hbody, IH by (rewrite ?length_insert; lia).
    destruct (decide (j = i)) as [->|Hne].
    + rewrite bool_decide_eq_false_2, bool_decide_eq_true_2 by lia.
      rewrite list_lookup_insert_eq, Ha by lia. reflexivity.
    + rewrite list_lookup_insert_ne by congruence.
      destruct (decide (S i <= j < S i + count)).
      * rewrite !bool_decide_eq_true_2 by lia. reflexivity.
      * rewrite !bool_decide_eq_false_2 by lia. reflexivity.
Qed.

(** A loop over the whole array is a map. *)
Lemma for_loop_map {A B : Type} (f : A -> B) (src : list A) (fill : B) :
  for_loop (List.length src) 0
    (fun (i : nat) (dst : list B) =>
       match src !! i with
       | Some a => <[ i := f a ]> dst
       | None => dst
       end)
    (replicate (List.length src) fill)
  = f <$> src.
Proof.
  apply list_eq; intros j.
  rewrite for_loop_lookup by (rewrite ?length_replicate; lia).
  rewrite list_lookup_fmap.
  destruct (decide (j < List.length src)).
  - rewrite bool_decide_eq_true_2 by lia. reflexivity.
  - rewrite bool_decide_eq_false_2 by lia.
    rewrite (lookup_ge_None_2 src) by lia.
    rewrite (lookup_ge_None_2 (replicate _ _))
      by (rewrite length_replicate; lia).
    reflexivity.
Qed.

Section Generic.

Context {T : Type} `{NumType T}.
Local Open Scope num_scope.

(** The scalar form is decided by its guard alone. *)
Lemma apply_guard (t : FromBeamVectorToDetector T) (s1 : vec3 T) :
  apply t s1 =
    if distance_ t * dot s1 (normal_ t) >? #0
    then Ok (Vec2
      (v2_0 (origin_ t)
         + distance_ t * dot s1 (x_axis_ t) / dot s1 (normal_ t))
      (v2_1 (origin_ t)
         + distance_ t * dot s1 (y_axis_ t) / dot s1 (normal_ t)))
    else Throw GeometryError.
Proof.
  unfold apply, DIALS_ASSERT, bind, ret.
  destruct (distance_ t * dot s1 (normal_ t) >? #0); reflexivity.
Qed.

(** The array form is the map of the scalar form, a throw being replaced
    by the sentinel. *)
Lemma apply_flex_map (fill : vec2 T) (t : FromBeamVectorToDetector T)
    (s1 : list (vec3 T)) :
  apply_flex fill t s1 =
    (fun s1_i => try_catch (apply t s1_i) (fun _ => sentinel)) <$> s1.
Proof. unfold apply_flex. apply for_loop_map. Qed.

(** C3: on every transform and every sequence of N beam vectors the array
    form returns a sequence (it has no way to throw) of exactly N
    coordinates; at every index where the scalar form returns, the output
    holds the scalar result, and at every index where the scalar form throws
    GeometryError, the output holds (-1, -1). *)
Theorem apply_flex_aligned (fill : vec2 T) (t : FromBeamVectorToDetector T)
    (s1 : list (vec3 T)) :
  List.length (apply_flex fill t s1) = List.length s1 /\
  forall (i : nat) (s1_i : vec3 T),
    s1 !! i = Some s1_i ->
    (forall r : vec2 T,
        apply t s1_i = Ok r -> apply_flex fill t s1 !! i = Some r) /\
    (apply t s1_i = Throw GeometryError ->
        apply_flex fill t s1 !! i = Some (Vec2 #(-1) #(-1))).
Proof.
  rewrite apply_flex_map. split.
  - apply length_fmap.
  - intros i s1_i Hi. rewrite list_lookup_fmap, Hi. cbn.
    split; [intros r Hr | intros Hr]; rewrite Hr; reflexivity.
Qed.

End Generic.

(** ** Exact arithmetic *)

Section Exact.

Local Open Scope R_scope.

Lemma Rgtb_true (x y : R) : Rgtb x y = true <-> x > y.
Proof. unfold Rgtb. destruct (Rgt_dec x y); split; (congruence || lra). Qed.

Lemma Rgtb_false (x y : R) : Rgtb x y = false <-> x <= y.
Proof. unfold Rgtb. destruct (Rgt_dec x y); split; (congruence || lra). Qed.

Lemma dot_exact (a b : vec3 R) :
  dot a b = v3_0 a * v3_0 b + v3_1 a * v3_1 b + v3_2 a * v3_2 b.
Proof. unfold dot. cbn. ring. Qed.

Lemma normalize_world_x : normalize (Vec3 1 0 0) = Vec3 1 0 0.
Proof.
  unfold normalize, length, length_sq, vdiv. rewrite dot_exact. cbn.
  replace (1 * 1 + 0 * 0 + 0 * 0) with 1 by ring.
  rewrite sqrt_1. f_equal; field.
Qed.

Lemma normalize_world_y : normalize (Vec3 0 1 0) = Vec3 0 1 0.
Proof.
  unfold normalize, length, length_sq, vdiv. rewrite dot_exact. cbn.
  replace (0 * 0 + 1 * 1 + 0 * 0) with 1 by ring.
  rewrite sqrt_1. f_equal; field.
Qed.

Lemma normalize_world_z : normalize (Vec3 0 0 1) = Vec3 0 0 1.
Proof.
  unfold normalize, length, length_sq, vdiv. rewrite dot_exact. cbn.
  replace (0 * 0 + 0 * 0 + 1 * 1) with 1 by ring.
  rewrite sqrt_1. f_equal; field.
Qed.

(** The transform on the world axes, its square roots taken. *)
Lemma ctor_world_axes (pixel_size origin : vec2 R) (distance : R) :
  ctor world_axes pixel_size origin distance =
    {| x_axis_ := vdiv (Vec3 1 0 0) (v2_0 pixel_size);
       y_axis_ := vdiv (Vec3 0 1 0) (v2_1 pixel_size);
       normal_ := Vec3 0 0 1;
       origin_ := origin;
       distance_ := distance |}.
Proof.
  unfold ctor, world_axes. cbn.
  rewrite normalize_world_x, normalize_world_y, normalize_world_z.
  reflexivity.
Qed.

Lemma apply_Ok (t : FromBeamVectorToDetector R) (s1 : vec3 R) :
  distance_ t * dot s1 (normal_ t) > 0 ->
  apply t s1 = Ok (Vec2
    (v2_0 (origin_ t) + distance_ t * dot s1 (x_axis_ t) / dot s1 (normal_ t))
    (v2_1 (origin_ t) + distance_ t * dot s1 (y_axis_ t) / dot s1 (normal_ t))).
Proof.
  intros Hgt. rewrite apply_guard. cbn.
  apply Rgtb_true in Hgt. cbn in Hgt. rewrite Hgt. reflexivity.
Qed.

Lemma apply_Throw (t : FromBeamVectorToDetector R) (s1 : vec3 R) :
  distance_ t * dot s1 (normal_ t) <= 0 ->
  apply t s1 = Throw GeometryError.
Proof.
  intros Hle. rewrite apply_guard. cbn.
  apply Rgtb_false in Hle. cbn in Hle. rewrite Hle. reflexivity.
Qed.

(** The guard leaves no room for a division by zero. *)
Lemma guard_nonzero (distance s1_dot_n : R) :
  distance * s1_dot_n > 0 -> s1_dot_n <> 0.
Proof. intros Hgt Hz. rewrite Hz, Rmult_0_r in Hgt. lra. Qed.

(** The scalar form on the world axes with unit pixels. *)
Lemma apply_Ok_world (D a b c : R) :
  D * c > 0 ->
  apply (ctor world_axes (Vec2 1 1) (Vec2 0 0) D) (Vec3 a b c)
    = Ok (Vec2 (D * a / c) (D * b / c)).
Proof.
  intros Hgt.
  assert (Hc : c <> 0) by exact (guard_nonzero D c Hgt).
  rewrite apply_Ok; rewrite ?ctor_world_axes; cbn;
    rewrite ?dot_exact; cbn.
  - f_equal. f_equal; field; exact Hc.
  - lra.
Qed.

Lemma scenario_transform_exact :
  scenario_transform = ctor world_axes (Vec2 1 1) (Vec2 0 0) 100.
Proof. reflexivity. Qed.

Lemma scenario_guard (a b c : R) :
  distance_ scenario_transform * dot (Vec3 a b c) (normal_ scenario_transform)
    = 100 * c.
Proof.
  rewrite scenario_transform_exact, ctor_world_axes, dot_exact. cbn. ring.
Qed.

Lemma apply_scenario_ahead :
  apply scenario_transform (Vec3 0 0 1) = Ok (Vec2 0 0).
Proof.
  rewrite scenario_transform_exact, (apply_Ok_world 100 0 0 1) by lra.
  f_equal. f_equal; field.
Qed.

Lemma apply_scenario_behind :
  apply scenario_transform (Vec3 0 0 (-1)) = Throw GeometryError.
Proof. apply apply_Throw. rewrite scenario_guard. lra. Qed.

Lemma apply_scenario_diagonal :
  apply scenario_transform (Vec3 1 1 1) = Ok (Vec2 100 100).
Proof.
  rewrite scenario_transform_exact, (apply_Ok_world 100 1 1 1) by lra.
  f_equal. f_equal; field.
Qed.

(** C1: on the transform constructed from a detector coordinate system, a
    pixel size, an origin and a distance, and a beam vector [s1] with
    [distance * dot s1 normal > 0], the scalar form returns
    [origin.x + distance * dot s1 x_axis / dot s1 normal] and
    [origin.y + distance * dot s1 y_axis / dot s1 normal] over the stored
    axes; with the world axes, pixel size (1,1), origin (0,0) and distance
    [D], it returns [(D*a/c, D*b/c)] on [s1 = (a,b,c)] when [D*c > 0]. *)
Theorem apply_projection :
  (forall (dcs : DetectorCoordinateSystem R) (pixel_size origin : vec2 R)
          (distance : R) (s1 : vec3 R),
      let t := ctor dcs pixel_size origin distance in
      distance * dot s1 (normal_ t) > 0 ->
      apply t s1 = Ok (Vec2
        (v2_0 origin + distance * dot s1 (x_axis_ t) / dot s1 (normal_ t))
        (v2_1 origin + distance * dot s1 (y_axis_ t) / dot s1 (normal_ t))))
  /\
  (forall D a b c : R,
      D * c > 0 ->
      apply (ctor world_axes (Vec2 1 1) (Vec2 0 0) D) (Vec3 a b c)
        = Ok (Vec2 (D * a / c) (D * b / c))).
Proof.
  split.
  - intros dcs pixel_size origin distance s1 t Hgt.
    apply (apply_Ok t s1 Hgt).
  - exact apply_Ok_world.
Qed.

Lemma apply_projection_witness :
  apply (ctor world_axes (Vec2 1 1) (Vec2 0 0) 100) (Vec3 1 1 1)
    = Ok (Vec2
        (0 + 100 * dot (Vec3 1 1 1)
                     (x_axis_ (ctor world_axes (Vec2 1 1) (Vec2 0 0) 100))
           / dot (Vec3 1 1 1)
               (normal_ (ctor world_axes (Vec2 1 1) (Vec2 0 0) 100)))
        (0 + 100 * dot (Vec3 1 1 1)
                     (y_axis_ (ctor world_axes (Vec2 1 1) (Vec2 0 0) 100))
           / dot (Vec3 1 1 1)
               (normal_ (ctor world_axes (Vec2 1 1) (Vec2 0 0) 100)))) /\
  apply (ctor world_axes (Vec2 1 1) (Vec2 0 0) 100) (Vec3 1 2 4)
    = Ok (Vec2 (100 * 1 / 4) (100 * 2 / 4)).
Proof.
  split.
  - apply (proj1 apply_projection world_axes (Vec2 1 1) (Vec2 0 0) 100
             (Vec3 1 1 1)).
    rewrite ctor_world_axes, dot_exact. cbn. lra.
  - apply (proj2 apply_projection 100 1 2 4). lra.
Defined.

(** C2: on every transform and every beam vector the scalar form throws
    GeometryError if and only if [distance * dot s1 normal <= 0]; it throws
    nothing else, and it returns no result in that case. *)
Theorem apply_fails_iff (t : FromBeamVectorToDetector R) (s1 : vec3 R) :
  (apply t s1 = Throw GeometryError
     <-> distance_ t * dot s1 (normal_ t) <= 0) /\
  (forall e : error, apply t s1 = Throw e -> e = GeometryError) /\
  (distance_ t * dot s1 (normal_ t) <= 0 ->
     forall r : vec2 R, apply t s1 <> Ok r).
Proof.
  split; [split|split].
  - intros Hthrow.
    destruct (Rle_or_lt (distance_ t * dot s1 (normal_ t)) 0) as [Hle|Hlt];
      [exact Hle|].
    rewrite (apply_Ok t s1 Hlt) in Hthrow. discriminate.
  - apply apply_Throw.
  - intros [] _. reflexivity.
  - intros Hle r Hr. rewrite (apply_Throw t s1 Hle) in Hr. discriminate.
Qed.

(** The recording arithmetic does record: 1/0 is [None] in it. *)
Example checked_div_by_zero :
  (#1 / #0)%num = (None : checked).
Proof.
  cbn. destruct (Req_dec_T 0 0) as [_|Hne]; [reflexivity|].
  exfalso. apply Hne. reflexivity.
Qed.

Lemma dot_checked (a b : vec3 R) :
  dot (vec3_map Some a : vec3 checked) (vec3_map Some b) = Some (dot a b).
Proof. reflexivity. Qed.

(** The scalar form in the arithmetic that records a division by zero, on
    numbers that are none: it divides by zero nowhere. *)
Lemma apply_checked (t : FromBeamVectorToDetector R) (s1 : vec3 R) :
  apply (transform_map Some t : FromBeamVectorToDetector checked)
        (vec3_map Some s1)
  = match apply t s1 with
    | Ok r => Ok (vec2_map Some r)
    | Throw e => Throw e
    end.
Proof.
  rewrite !apply_guard.
  cbn [transform_map x_axis_ y_axis_ normal_ origin_ distance_].
  rewrite !dot_checked.
  generalize (dot s1 (normal_ t)) (dot s1 (x_axis_ t)) (dot s1 (y_axis_ t)).
  intros n x y. cbn.
  destruct (Rgtb (distance_ t * n) 0) eqn:Hguard; [|reflexivity].
  apply Rgtb_true, guard_nonzero in Hguard.
  destruct (Req_dec_T n 0) as [Hz|_]; [contradiction|reflexivity].
Qed.

(** C10: whenever the check [distance * dot s1 normal > 0] passes,
    [dot s1 normal] is not zero; so the scalar form either throws
    GeometryError or returns the two quotients taken by a divisor that is
    not zero, and run in the arithmetic that records a division by zero it
    records none. *)
Theorem apply_division_guarded (t : FromBeamVectorToDetector R)
    (s1 : vec3 R) :
  (distance_ t * dot s1 (normal_ t) > 0 -> dot s1 (normal_ t) <> 0) /\
  (apply t s1 = Throw GeometryError \/
   (dot s1 (normal_ t) <> 0 /\
    apply t s1 = Ok (Vec2
      (v2_0 (origin_ t)
         + distance_ t * dot s1 (x_axis_ t) / dot s1 (normal_ t))
      (v2_1 (origin_ t)
         + distance_ t * dot s1 (y_axis_ t) / dot s1 (normal_ t))))) /\
  (apply (transform_map Some t : FromBeamVectorToDetector checked)
         (vec3_map Some s1) = Throw GeometryError \/
   exists px py : R,
     apply (transform_map Some t : FromBeamVectorToDetector checked)
           (vec3_map Some s1) = Ok (Vec2 (Some px) (Some py)) /\
     apply t s1 = Ok (Vec2 px py)).
Proof.
  split; [apply guard_nonzero|].
  rewrite apply_checked.
  destruct (Rle_or_lt (distance_ t * dot s1 (normal_ t)) 0) as [Hle|Hlt].
  - rewrite (apply_Throw t s1 Hle). split; left; reflexivity.
  - rewrite (apply_Ok t s1 Hlt). split; right.
    + split; [exact (guard_nonzero _ _ Hlt)|reflexivity].
    + eexists _, _. split; reflexivity.
Qed.

Lemma dot_vscale (lambda : R) (s1 n : vec3 R) :
  dot (vscale lambda s1) n = lambda * dot s1 n.
Proof. rewrite !dot_exact. cbn. ring. Qed.

(** C6: for [lambda > 0] the guard holds on [lambda * s1] exactly when it
    holds on [s1], and when it holds the scalar form returns on
    [lambda * s1] what it returns on [s1]. *)
Theorem apply_scale_invariant (t : FromBeamVectorToDetector R)
    (s1 : vec3 R) (lambda : R) :
  lambda > 0 ->
  (distance_ t * dot (vscale lambda s1) (normal_ t) > 0
     <-> distance_ t * dot s1 (normal_ t) > 0) /\
  (distance_ t * dot s1 (normal_ t) > 0 ->
     apply t (vscale lambda s1) = apply t s1).
Proof.
  intros Hlambda.
  assert (Hguard : distance_ t * dot (vscale lambda s1) (normal_ t) > 0
                   <-> distance_ t * dot s1 (normal_ t) > 0).
  { rewrite dot_vscale.
    replace (distance_ t * (lambda * dot s1 (normal_ t)))
      with (lambda * (distance_ t * dot s1 (normal_ t))) by ring.
    split; intros Hgt.
    - apply (Rmult_lt_reg_l lambda); [lra|]. rewrite Rmult_0_r. exact Hgt.
    - apply Rmult_lt_0_compat; lra. }
  split; [exact Hguard|].
  intros Hgt.
  rewrite (apply_Ok t s1 Hgt).
  rewrite (apply_Ok t (vscale lambda s1)) by (apply Hguard, Hgt).
  rewrite !dot_vscale.
  pose proof (guard_nonzero _ _ Hgt) as Hn.
  f_equal. f_equal; field; split; lra.
Qed.

Lemma apply_scale_invariant_witness :
  apply scenario_transform (vscale 2 (Vec3 1 1 1))
    = apply scenario_transform (Vec3 1 1 1).
Proof.
  apply (apply_scale_invariant scenario_transform (Vec3 1 1 1) 2).
  - lra.
  - rewrite (scenario_guard 1 1 1). lra.
Defined.

(** On a constructed transform, the change of the origin is the
    construction with the other origin. *)
Lemma with_origin_ctor (dcs : DetectorCoordinateSystem R)
    (pixel_size origin origin' : vec2 R) (distance : R) :
  with_origin (ctor dcs pixel_size origin distance) origin'
    = ctor dcs pixel_size origin' distance.
Proof. reflexivity. Qed.

(** C7: of two transforms that differ in the origin alone, (0,0) in the
    first and (ox,oy) in the second, the second returns wherever the first
    does, and its result is the result of the first shifted by (ox,oy). *)
Theorem apply_origin_shift (t : FromBeamVectorToDetector R) (s1 : vec3 R)
    (ox oy : R) (r : vec2 R) :
  origin_ t = Vec2 0 0 ->
  apply t s1 = Ok r ->
  apply (with_origin t (Vec2 ox oy)) s1
    = Ok (Vec2 (v2_0 r + ox) (v2_1 r + oy)).
Proof.
  intros Horigin Hr.
  destruct (Rle_or_lt (distance_ t * dot s1 (normal_ t)) 0) as [Hle|Hlt].
  - rewrite (apply_Throw t s1 Hle) in Hr. discriminate.
  - rewrite (apply_Ok t s1 Hlt), Horigin in Hr.
    injection Hr as <-. rewrite apply_Ok by exact Hlt. cbn.
    f_equal. f_equal; ring.
Qed.

Lemma apply_origin_shift_witness :
  apply (with_origin scenario_transform (Vec2 5 7)) (Vec3 1 1 1)
    = Ok (Vec2 (100 + 5) (100 + 7)).
Proof.
  apply (apply_origin_shift scenario_transform (Vec3 1 1 1) 5 7
           (Vec2 100 100)).
  - reflexivity.
  - exact apply_scenario_diagonal.
Defined.

Lemma dot_vdiv (s1 u : vec3 R) (p : R) :
  dot s1 (vdiv u p) = dot s1 u / p.
Proof. rewrite !dot_exact. cbn. unfold Rdiv. ring. Qed.

(** C8: for the transform on the world axes with origin (0,0), the change
    of the pixel size from (1,1) to (p,p) multiplies both components of the
    result of the scalar form by 1/p. *)
Theorem apply_pixel_scaling (D p : R) (s1 : vec3 R) (r : vec2 R) :
  p <> 0 ->
  apply (ctor world_axes (Vec2 1 1) (Vec2 0 0) D) s1 = Ok r ->
  apply (ctor world_axes (Vec2 p p) (Vec2 0 0) D) s1
    = Ok (Vec2 (v2_0 r * (1 / p)) (v2_1 r * (1 / p))).
Proof.
  intros Hp. rewrite !ctor_world_axes. cbn [v2_0 v2_1]. intros Hr.
  destruct (Rle_or_lt (D * dot s1 (Vec3 0 0 1)) 0) as [Hle|Hlt].
  - rewrite apply_Throw in Hr by exact Hle. discriminate.
  - rewrite apply_Ok in Hr by exact Hlt.
    rewrite apply_Ok by exact Hlt.
    pose proof (guard_nonzero _ _ Hlt) as Hn.
    cbn [x_axis_ y_axis_ normal_ origin_ distance_ v2_0 v2_1] in *.
    rewrite !dot_vdiv in *.
    injection Hr as Hr. rewrite <- Hr. cbn [v2_0 v2_1].
    unfold dot in *. cbn in *.
    f_equal. f_equal; field;
      repeat split; (assumption || (intros Hz; apply Hn; lra)).
Qed.

Lemma apply_pixel_scaling_witness :
  apply (ctor world_axes (Vec2 2 2) (Vec2 0 0) 100) (Vec3 1 1 1)
    = Ok (Vec2 (100 * (1 / 2)) (100 * (1 / 2))).
Proof.
  apply (apply_pixel_scaling 100 2 (Vec3 1 1 1) (Vec2 100 100)).
  - lra.
  - exact apply_scenario_diagonal.
Defined.

Lemma length_sq_pos (v : vec3 R) : v <> Vec3 0 0 0 -> 0 < length_sq v.
Proof.
  destruct v as [x y z]. intros Hv. unfold length_sq. rewrite dot_exact. cbn.
  destruct (Rlt_or_le 0 (x * x + y * y + z * z)) as [Hlt|Hle]; [exact Hlt|].
  exfalso. apply Hv.
  assert (x = 0) by nra. assert (y = 0) by nra. assert (z = 0) by nra.
  congruence.
Qed.

Lemma length_pos (v : vec3 R) : v <> Vec3 0 0 0 -> 0 < length v.
Proof. intros Hv. apply sqrt_lt_R0, length_sq_pos, Hv. Qed.

(** [normalize] gives the vector of length 1 in the direction of [v]. *)
Lemma normalize_unit (v : vec3 R) :
  v <> Vec3 0 0 0 ->
  length (normalize v) = 1 /\ vscale (length v) (normalize v) = v.
Proof.
  intros Hv.
  pose proof (length_pos v Hv) as HL.
  pose proof (length_sq_pos v Hv) as HS.
  assert (HLL : length v * length v = length_sq v)
    by (apply sqrt_sqrt; lra).
  split.
  - unfold normalize. unfold length at 1. unfold length_sq.
    rewrite dot_exact. cbn [vdiv v3_0 v3_1 v3_2].
    replace (v3_0 v / length v * (v3_0 v / length v)
             + v3_1 v / length v * (v3_1 v / length v)
             + v3_2 v / length v * (v3_2 v / length v))
      with (length_sq v / (length v * length v)).
    + rewrite HLL. replace (length_sq v / length_sq v) with 1 by (field; lra).
      apply sqrt_1.
    + unfold length_sq at 1. rewrite dot_exact. field. lra.
  - destruct v as [x y z]. unfold normalize, vscale, vdiv.
    set (L := length _) in *. clearbody L. cbn. f_equal; field; lra.
Qed.

(** The components of a normalized vector, written out. *)
Lemma normalize_components (v : vec3 R) :
  normalize v =
    Vec3
      (v3_0 v / R_sqrt.sqrt (v3_0 v * v3_0 v + v3_1 v * v3_1 v + v3_2 v * v3_2 v))
      (v3_1 v / R_sqrt.sqrt (v3_0 v * v3_0 v + v3_1 v * v3_1 v + v3_2 v * v3_2 v))
      (v3_2 v / R_sqrt.sqrt (v3_0 v * v3_0 v + v3_1 v * v3_1 v + v3_2 v * v3_2 v)).
Proof.
  unfold normalize, length, length_sq, vdiv. rewrite dot_exact. reflexivity.
Qed.

(** The squares of the components of a normalized vector add up to 1, and
    the vector it comes from is a positive multiple of it. *)
Lemma normalize_squares (v : vec3 R) :
  v <> Vec3 0 0 0 ->
  v3_0 (normalize v) * v3_0 (normalize v)
    + v3_1 (normalize v) * v3_1 (normalize v)
    + v3_2 (normalize v) * v3_2 (normalize v) = 1 /\
  exists k : R,
    k > 0 /\
    v = Vec3 (k * v3_0 (normalize v)) (k * v3_1 (normalize v))
             (k * v3_2 (normalize v)).
Proof.
  intros Hv.
  pose proof (length_pos v Hv) as HL.
  pose proof (length_sq_pos v Hv) as HS.
  assert (HLL : length v * length v = length_sq v)
    by (apply sqrt_sqrt; lra).
  unfold length_sq in HLL. rewrite dot_exact in HLL.
  unfold normalize, vdiv. cbn [v3_0 v3_1 v3_2].
  set (L := length v) in *. clearbody L. cbn [num_div R_NumType].
  split.
  - replace (v3_0 v / L * (v3_0 v / L) + v3_1 v / L * (v3_1 v / L)
             + v3_2 v / L * (v3_2 v / L))
      with ((v3_0 v * v3_0 v + v3_1 v * v3_1 v + v3_2 v * v3_2 v)
            / (L * L)) by (field; lra).
    rewrite <- HLL. field. lra.
  - exists L. split; [lra|].
    destruct v as [x y z]. cbn [v3_0 v3_1 v3_2]. f_equal; field; lra.
Qed.

(** C4: the constructor stores the origin and the distance as they are
    given; it stores as [normal] the normal of the detector divided by its
    Euclidean length, and as [x_axis] and [y_axis] the two axes divided by
    their lengths and then by [pixel_size.x] and [pixel_size.y].  So, for a
    normal that is not zero, the squares of the components of the stored
    normal add up to 1 and the normal of the detector is a positive multiple
    of it; and for an axis and a pixel size that are not zero, the stored
    axis times the pixel size is such a unit vector along the axis of the
    detector. *)
Theorem ctor_stores (dcs : DetectorCoordinateSystem R)
    (pixel_size origin : vec2 R) (distance : R) :
  let t := ctor dcs pixel_size origin distance in
  let squares (v : vec3 R) :=
    v3_0 v * v3_0 v + v3_1 v * v3_1 v + v3_2 v * v3_2 v in
  let times (k : R) (v : vec3 R) :=
    Vec3 (k * v3_0 v) (k * v3_1 v) (k * v3_2 v) in
  let over (v : vec3 R) (k : R) :=
    Vec3 (v3_0 v / k) (v3_1 v / k) (v3_2 v / k) in
  x_axis_ t
    = over (over (get_x_axis dcs) (R_sqrt.sqrt (squares (get_x_axis dcs))))
           (v2_0 pixel_size) /\
  y_axis_ t
    = over (over (get_y_axis dcs) (R_sqrt.sqrt (squares (get_y_axis dcs))))
           (v2_1 pixel_size) /\
  normal_ t = over (get_normal dcs) (R_sqrt.sqrt (squares (get_normal dcs))) /\
  origin_ t = origin /\
  distance_ t = distance /\
  (get_normal dcs <> Vec3 0 0 0 ->
     squares (normal_ t) = 1 /\
     exists k : R, k > 0 /\ get_normal dcs = times k (normal_ t)) /\
  (get_x_axis dcs <> Vec3 0 0 0 -> v2_0 pixel_size <> 0 ->
     squares (times (v2_0 pixel_size) (x_axis_ t)) = 1 /\
     exists k : R,
       k > 0 /\
       get_x_axis dcs = times k (times (v2_0 pixel_size) (x_axis_ t))) /\
  (get_y_axis dcs <> Vec3 0 0 0 -> v2_1 pixel_size <> 0 ->
     squares (times (v2_1 pixel_size) (y_axis_ t)) = 1 /\
     exists k : R,
       k > 0 /\
       get_y_axis dcs = times k (times (v2_1 pixel_size) (y_axis_ t))).
Proof.
  intros t squares times over.
  assert (Hscaled : forall (v : vec3 R) (p : R),
            p <> 0 -> times p (vdiv (normalize v) p) = normalize v).
  { intros v p Hp. unfold times, vdiv. cbn [v3_0 v3_1 v3_2].
    destruct (normalize v) as [a b c]. cbn. f_equal; field; exact Hp. }
  subst t. cbn [ctor x_axis_ y_axis_ normal_ origin_ distance_].
  split; [|split; [|split; [|split; [|split; [|split; [|split]]]]]].
  - rewrite normalize_components. reflexivity.
  - rewrite normalize_components. reflexivity.
  - apply normalize_components.
  - reflexivity.
  - reflexivity.
  - intros Hn. exact (normalize_squares _ Hn).
  - intros Hx Hp. rewrite (Hscaled _ _ Hp). exact (normalize_squares _ Hx).
  - intros Hy Hp. rewrite (Hscaled _ _ Hp). exact (normalize_squares _ Hy).
Qed.

Lemma ctor_stores_witness :
  let t :=
    ctor {| get_x_axis := Vec3 3 4 0;
            get_y_axis := Vec3 (-4) 3 0;
            get_normal := Vec3 0 0 2 |}
         (Vec2 2 5) (Vec2 0 0) 100 in
  v3_0 (normal_ t) * v3_0 (normal_ t) + v3_1 (normal_ t) * v3_1 (normal_ t)
    + v3_2 (normal_ t) * v3_2 (normal_ t) = 1 /\
  2 * v3_0 (x_axis_ t) * (2 * v3_0 (x_axis_ t))
    + 2 * v3_1 (x_axis_ t) * (2 * v3_1 (x_axis_ t))
    + 2 * v3_2 (x_axis_ t) * (2 * v3_2 (x_axis_ t)) = 1.
Proof.
  intros t.
  destruct (ctor_stores
              {| get_x_axis := Vec3 3 4 0;
                 get_y_axis := Vec3 (-4) 3 0;
                 get_normal := Vec3 0 0 2 |}
              (Vec2 2 5) (Vec2 0 0) 100)
    as (_ & _ & _ & _ & _ & Hn & Hx & _).
  split.
  - apply Hn. cbn. intros Hz. injection Hz. intros. lra.
  - apply Hx; cbn.
    + intros Hz. injection Hz. intros. lra.
    + lra.
Defined.

(** C9: on the default-constructed transform, whatever its vectors hold,
    the check of the scalar form is false on every beam vector, its product
    being [0 * dot s1 normal], and the scalar form throws GeometryError; the
    array form returns (-1, -1) at every index. *)
Theorem default_ctor_apply (x_axis y_axis normal : vec3 R)
    (origin : vec2 R) :
  let t := default_ctor x_axis y_axis normal origin in
  (forall s1 : vec3 R,
      distance_ t * dot s1 (normal_ t) = 0 /\
      Rgtb (distance_ t * dot s1 (normal_ t)) 0 = false /\
      apply t s1 = Throw GeometryError) /\
  (forall (fill : vec2 R) (s1 : list (vec3 R)),
      apply_flex fill t s1
        = replicate (List.length s1) (Vec2 (-1) (-1))) /\
  (forall (fill : vec2 R) (s1 : list (vec3 R)) (i : nat),
      (i < List.length s1)%nat ->
      apply_flex fill t s1 !! i = Some (Vec2 (-1) (-1))).
Proof.
  intros t.
  assert (Hzero : forall s1 : vec3 R,
             distance_ t * dot s1 (normal_ t) = 0)
    by (intros s1; cbn; ring).
  assert (Hthrow : forall s1 : vec3 R, apply t s1 = Throw GeometryError)
    by (intros s1; apply apply_Throw; rewrite Hzero; lra).
  assert (Hflex : forall (fill : vec2 R) (s1 : list (vec3 R)),
             apply_flex fill t s1
               = replicate (List.length s1) (Vec2 (-1) (-1))).
  { intros fill s1. rewrite apply_flex_map.
    apply const_fmap. intros i s1_i _. rewrite Hthrow. reflexivity. }
  split; [|split].
  - intros s1. split; [apply Hzero|]. split; [|apply Hthrow].
    apply Rgtb_false. rewrite Hzero. lra.
  - exact Hflex.
  - intros fill s1 i Hi. rewrite Hflex. apply lookup_replicate_2, Hi.
Qed.

End Exact.

(** ** The documented scenarios *)

(** C5: on the transform with the world axes, pixel size (1,1), origin
    (0,0) and distance 100, the scalar form returns (0,0) on (0,0,1) and
    throws GeometryError on (0,0,-1), and the array form returns
    [(0,0); (-1,-1); (100,100)] on [(0,0,1); (0,0,-1); (1,1,1)]; so it is in
    exact arithmetic, and so it is in binary64. *)
Theorem scenarios :
  (apply (T:=R) scenario_transform (Vec3 0 0 1) = Ok (Vec2 0 0) /\
   apply (T:=R) scenario_transform (Vec3 0 0 (-1)) = Throw GeometryError /\
   forall fill : vec2 R,
     apply_flex fill scenario_transform
       [Vec3 0 0 1; Vec3 0 0 (-1); Vec3 1 1 1]
     = [Vec2 0 0; Vec2 (-1) (-1); Vec2 100 100])%R /\
  (apply (T:=float) scenario_transform (Vec3 0 0 1) = Ok (Vec2 0 0) /\
   apply (T:=float) scenario_transform (Vec3 0 0 (-1))
     = Throw GeometryError /\
   forall fill : vec2 float,
     apply_flex fill scenario_transform
       [Vec3 0 0 1; Vec3 0 0 (-1); Vec3 1 1 1]
     = [Vec2 0 0; Vec2 (-1) (-1); Vec2 100 100])%float.
Proof.
  pose proof apply_scenario_ahead as HA.
  pose proof apply_scenario_behind as HC.
  pose proof apply_scenario_diagonal as HD.
  split; [split; [exact HA | split; [exact HC|]] |].
  - intros fill. rewrite apply_flex_map. cbn [fmap list_fmap].
    rewrite HA, HC, HD. reflexivity.
  - split; [|split]; [vm_compute; reflexivity .. |].
    intros fill. vm_compute. reflexivity.
Qed.

(** Outside exact arithmetic.  In binary64 a beam vector that holds a NaN
    makes the product of the check a NaN, and no comparison with a NaN is
    true: the check [> 0] is false and the scalar form throws, while [<= 0]
    is false on the product as well.  Such a vector is no vector of real
    numbers, and the properties above do not speak about it. *)
Remark apply_nan_binary64 :
  apply (T:=float) scenario_transform (Vec3 nan 0 1)%float
    = Throw GeometryError /\
  PrimFloat.leb
    (distance_ scenario_transform
       * dot (Vec3 nan 0 1)%float (normal_ scenario_transform))%num
    0%float = false.
Proof. split; vm_compute; reflexivity. Qed.

(** * Further properties of the transform *)

(** ** The array form *)

Section Flex.

Context {T : Type} `{NumType T}.

(** X1: the array form returns the same sequence whatever the fresh result
    array holds before the loop: the loop writes every slot, and nothing of
    the initial content reaches the output. *)
Theorem apply_flex_fill_irrelevant (fill fill' : vec2 T)
    (t : FromBeamVectorToDetector T) (s1 : list (vec3 T)) :
  apply_flex fill t s1 = apply_flex fill' t s1.
Proof. rewrite !apply_flex_map. reflexivity. Qed.

(** X2: the array form works element by element: on no beam vector it
    returns no coordinate, and on the concatenation of two sequences it
    returns the concatenation of what it returns on each. *)
Theorem apply_flex_app (fill : vec2 T) (t : FromBeamVectorToDetector T)
    (s1 s1' : list (vec3 T)) :
  apply_flex fill t [] = [] /\
  apply_flex fill t (s1 ++ s1') = apply_flex fill t s1 ++ apply_flex fill t s1'.
Proof.
  rewrite !apply_flex_map. split; [reflexivity|]. apply fmap_app.
Qed.

End Flex.

(** ** The scalar form in exact arithmetic *)

Section Geometry.

Local Open Scope R_scope.

Lemma dot_sym (a b : vec3 R) : dot a b = dot b a.
Proof. rewrite !dot_exact. ring. Qed.

Lemma dot_vadd (a b c : vec3 R) : dot (vadd a b) c = dot a c + dot b c.
Proof. rewrite !dot_exact. cbn. ring. Qed.

Lemma dot_vscale_r (lambda : R) (s1 n : vec3 R) :
  dot s1 (vscale lambda n) = lambda * dot s1 n.
Proof. rewrite !dot_exact. cbn. ring. Qed.

(** What the scalar form returns, when it returns. *)
Lemma apply_Ok_inv (t : FromBeamVectorToDetector R) (s1 : vec3 R)
    (r : vec2 R) :
  apply t s1 = Ok r ->
  distance_ t * dot s1 (normal_ t) > 0 /\
  r = Vec2
    (v2_0 (origin_ t) + distance_ t * dot s1 (x_axis_ t) / dot s1 (normal_ t))
    (v2_1 (origin_ t) + distance_ t * dot s1 (y_axis_ t) / dot s1 (normal_ t)).
Proof.
  intros Hr.
  destruct (Rle_or_lt (distance_ t * dot s1 (normal_ t)) 0) as [Hle|Hlt].
  - rewrite (apply_Throw t s1 Hle) in Hr. discriminate.
  - split; [exact Hlt|]. rewrite (apply_Ok t s1 Hlt) in Hr. congruence.
Qed.

(** X3: the scalar form returns a coordinate exactly when the distance and
    [dot s1 normal] are both positive or both negative; a beam vector in the
    plane of the detector, the zero vector and a zero distance are all
    rejected. *)
Theorem apply_accepts_iff (t : FromBeamVectorToDetector R) (s1 : vec3 R) :
  (exists r : vec2 R, apply t s1 = Ok r) <->
  (distance_ t > 0 /\ dot s1 (normal_ t) > 0) \/
  (distance_ t < 0 /\ dot s1 (normal_ t) < 0).
Proof.
  split.
  - intros [r Hr]. apply apply_Ok_inv in Hr as [Hgt _].
    destruct (Rtotal_order (distance_ t) 0) as [Hd|[Hd|Hd]].
    + right. split; [exact Hd|]. nra.
    + rewrite Hd, Rmult_0_l in Hgt. lra.
    + left. split; [exact Hd|]. nra.
  - intros Hsign. eexists. apply apply_Ok. nra.
Qed.

(** X4: the scalar form never accepts a beam vector and a vector that
    points the other way: where it returns on [s1], it throws on
    [lambda * s1] for every [lambda <= 0]. *)
Theorem apply_rejects_opposite (t : FromBeamVectorToDetector R)
    (s1 : vec3 R) (lambda : R) (r : vec2 R) :
  lambda <= 0 ->
  apply t s1 = Ok r ->
  apply t (vscale lambda s1) = Throw GeometryError.
Proof.
  intros Hlambda Hr. apply apply_Ok_inv in Hr as [Hgt _].
  apply apply_Throw. rewrite dot_vscale. nra.
Qed.

Lemma apply_rejects_opposite_witness :
  apply scenario_transform (vscale (-1) (Vec3 1 1 1)) = Throw GeometryError.
Proof.
  apply (apply_rejects_opposite scenario_transform (Vec3 1 1 1) (-1)
           (Vec2 100 100)).
  - lra.
  - exact apply_scenario_diagonal.
Defined.

(** X6: where the scalar form returns, the beam vector scaled by
    [k = distance / dot s1 normal] is a point [P] ahead on the ray
    ([k > 0]) with [dot P normal = distance], and the coordinates returned
    are the origin plus the products of [P] with the stored axes. *)
Theorem apply_meets_plane (t : FromBeamVectorToDetector R) (s1 : vec3 R)
    (r : vec2 R) :
  apply t s1 = Ok r ->
  let k := distance_ t / dot s1 (normal_ t) in
  let P := vscale k s1 in
  k > 0 /\
  dot P (normal_ t) = distance_ t /\
  r = Vec2 (v2_0 (origin_ t) + dot P (x_axis_ t))
           (v2_1 (origin_ t) + dot P (y_axis_ t)).
Proof.
  intros Hr k P. apply apply_Ok_inv in Hr as [Hgt ->].
  pose proof (guard_nonzero _ _ Hgt) as Hn.
  subst P. rewrite !dot_vscale. subst k.
  split; [|split].
  - replace (distance_ t / dot s1 (normal_ t))
      with (distance_ t * dot s1 (normal_ t)
            * (/ dot s1 (normal_ t) * / dot s1 (normal_ t)))
      by (field; exact Hn).
    apply Rmult_lt_0_compat; [exact Hgt|].
    pose proof (Rinv_neq_0_compat _ Hn) as Hi. nra.
  - field. exact Hn.
  - f_equal; field; exact Hn.
Qed.

Lemma apply_meets_plane_witness :
  100 / dot (Vec3 1 1 1) (normal_ scenario_transform) > 0 /\
  dot (vscale (100 / dot (Vec3 1 1 1) (normal_ scenario_transform))
         (Vec3 1 1 1))
      (normal_ scenario_transform) = 100.
Proof.
  pose proof (apply_meets_plane scenario_transform (Vec3 1 1 1)
                (Vec2 100 100) apply_scenario_diagonal) as [Hk [HP _]].
  split; [exact Hk | exact HP].
Defined.

(** ** The constructor and the scalar form together *)

Lemma length_zero (v : vec3 R) : length v = 0 -> v = Vec3 0 0 0.
Proof.
  intros HL. destruct v as [x y z].
  assert (HS : x * x + y * y + z * z = 0).
  { unfold length, length_sq in HL. rewrite dot_exact in HL. cbn in HL.
    apply sqrt_eq_0 in HL; [exact HL | nra]. }
  assert (x = 0) by nra. assert (y = 0) by nra. assert (z = 0) by nra.
  congruence.
Qed.

Lemma length_vscale_pos (k : R) (v : vec3 R) :
  0 < k -> length (vscale k v) = k * length v.
Proof.
  intros Hk. destruct v as [x y z].
  unfold length, length_sq. rewrite !dot_exact. cbn.
  replace (k * x * (k * x) + k * y * (k * y) + k * z * (k * z))
    with (k * k * (x * x + y * y + z * z)) by ring.
  rewrite sqrt_mult by nra. rewrite sqrt_square by lra. reflexivity.
Qed.

(** [normalize] sees the direction of a vector only. *)
Lemma normalize_vscale_pos (k : R) (v : vec3 R) :
  0 < k -> normalize (vscale k v) = normalize v.
Proof.
  intros Hk. destruct (Req_dec (length v) 0) as [HL|HL].
  - apply length_zero in HL. subst v. unfold vscale. cbn.
    rewrite Rmult_0_r. reflexivity.
  - unfold normalize. rewrite (length_vscale_pos k v Hk).
    generalize dependent (length v). intros L HL.
    destruct v as [x y z]. unfold vscale, vdiv. cbn.
    f_equal; field; split; lra.
Qed.

Lemma normalize_opposite (v : vec3 R) :
  normalize (vscale (-1) v) = vscale (-1) (normalize v).
Proof.
  assert (HL : length (vscale (-1) v) = length v).
  { unfold length, length_sq. rewrite !dot_exact. cbn. f_equal. ring. }
  unfold normalize. rewrite HL. generalize (length v). intros L.
  destruct v as [x y z]. unfold vscale, vdiv. cbn.
  unfold Rdiv. f_equal; ring.
Qed.

Lemma normalize_unit_vector (v : vec3 R) : dot v v = 1 -> normalize v = v.
Proof.
  intros Hv. unfold normalize, length, length_sq. rewrite Hv. cbn.
  rewrite sqrt_1. destruct v as [x y z]. unfold vdiv. cbn.
  f_equal; field.
Qed.

(** X5: the transform constructed with the normal turned round and the
    distance negated is the same map: the scalar form throws on the same
    beam vectors and returns the same coordinates on the others. *)
Theorem apply_flip_normal (dcs : DetectorCoordinateSystem R)
    (pixel_size origin : vec2 R) (distance : R) (s1 : vec3 R) :
  apply (ctor (flip_normal dcs) pixel_size origin (- distance)) s1
    = apply (ctor dcs pixel_size origin distance) s1.
Proof.
  rewrite !apply_guard.
  cbn [ctor flip_normal x_axis_ y_axis_ normal_ origin_ distance_
       get_x_axis get_y_axis get_normal].
  rewrite normalize_opposite, !dot_vscale_r.
  generalize (dot s1 (normalize (get_normal dcs)))
             (dot s1 (vdiv (normalize (get_x_axis dcs)) (v2_0 pixel_size)))
             (dot s1 (vdiv (normalize (get_y_axis dcs)) (v2_1 pixel_size))).
  intros n x y. cbn.
  replace (- distance * (-1 * n)) with (distance * n) by ring.
  destruct (Rgtb (distance * n) 0) eqn:Hguard; [|reflexivity].
  apply Rgtb_true, guard_nonzero in Hguard.
  f_equal. f_equal; field; exact Hguard.
Qed.

(** The scalar form on a point of the detector. *)
Lemma apply_detector_point (dcs : DetectorCoordinateSystem R)
    (pixel_size origin : vec2 R) (distance px py : R) :
  orthonormal dcs ->
  distance <> 0 -> v2_0 pixel_size <> 0 -> v2_1 pixel_size <> 0 ->
  apply (ctor dcs pixel_size origin distance)
        (detector_point dcs pixel_size origin distance px py)
    = Ok (Vec2 px py).
Proof.
  intros (Hxx & Hyy & Hnn & Hxy & Hxn & Hyn) Hd Hpx Hpy.
  pose proof Hxy as Hyx. rewrite dot_sym in Hyx.
  pose proof Hxn as Hnx. rewrite dot_sym in Hnx.
  pose proof Hyn as Hny. rewrite dot_sym in Hny.
  assert (Hguard :
    dot (detector_point dcs pixel_size origin distance px py)
        (get_normal dcs) = distance).
  { unfold detector_point. rewrite !dot_vadd, !dot_vscale.
    rewrite Hnn, Hxn, Hyn. ring. }
  rewrite apply_Ok;
    cbn [ctor x_axis_ y_axis_ normal_ origin_ distance_];
    rewrite ?(normalize_unit_vector _ Hxx), ?(normalize_unit_vector _ Hyy),
            ?(normalize_unit_vector _ Hnn), ?dot_vdiv, ?Hguard.
  - unfold detector_point. rewrite !dot_vadd, !dot_vscale.
    rewrite Hnx, Hxx, Hyx, Hny, Hxy, Hyy.
    f_equal. f_equal; field; split; assumption.
  - nra.
Qed.

Lemma orthonormal_world_axes : orthonormal world_axes.
Proof. unfold orthonormal. rewrite !dot_exact. cbn. repeat split; ring. Qed.

(** X7: the constructor and the scalar form invert the geometry of the
    detector.  For a coordinate system of orthogonal unit vectors, a
    distance and pixel sizes that are not zero, the beam vector to the point
    of the detector at the pixel coordinates [(px, py)] is mapped to
    [(px, py)]. *)
Theorem apply_detector_point_round_trip (dcs : DetectorCoordinateSystem R)
    (pixel_size origin : vec2 R) (distance px py : R) :
  orthonormal dcs ->
  distance <> 0 -> v2_0 pixel_size <> 0 -> v2_1 pixel_size <> 0 ->
  apply (ctor dcs pixel_size origin distance)
        (vadd (vscale distance (get_normal dcs))
           (vadd
              (vscale ((px - v2_0 origin) * v2_0 pixel_size)
                 (get_x_axis dcs))
              (vscale ((py - v2_1 origin) * v2_1 pixel_size)
                 (get_y_axis dcs))))
    = Ok (Vec2 px py).
Proof. exact (apply_detector_point dcs pixel_size origin distance px py). Qed.

Lemma apply_detector_point_round_trip_witness :
  apply (ctor world_axes (Vec2 2 3) (Vec2 5 7) 100)
        (vadd (vscale 100 (Vec3 0 0 1))
           (vadd (vscale ((10 - 5) * 2) (Vec3 1 0 0))
                 (vscale ((20 - 7) * 3) (Vec3 0 1 0))))
    = Ok (Vec2 10 20).
Proof.
  assert (Hd : 100 <> 0) by lra.
  assert (Hpx : v2_0 (Vec2 2 3) <> 0) by (cbn; lra).
  assert (Hpy : v2_1 (Vec2 2 3) <> 0) by (cbn; lra).
  exact (apply_detector_point_round_trip world_axes (Vec2 2 3) (Vec2 5 7)
           100 10 20 orthonormal_world_axes Hd Hpx Hpy).
Defined.

(** X8: for every coordinate system, origin and distance, the pixel size
    divides the offset of the result from the origin, each component by its
    own pixel size: the result with the pixel size [(px, py)] is the origin
    plus the offset of the result with the pixel size (1,1) divided by [px]
    and by [py]. *)
Theorem apply_pixel_size (dcs : DetectorCoordinateSystem R)
    (origin : vec2 R) (distance px py : R) (s1 : vec3 R) (r : vec2 R) :
  px <> 0 -> py <> 0 ->
  apply (ctor dcs (Vec2 1 1) origin distance) s1 = Ok r ->
  apply (ctor dcs (Vec2 px py) origin distance) s1
    = Ok (Vec2 (v2_0 origin + (v2_0 r - v2_0 origin) / px)
               (v2_1 origin + (v2_1 r - v2_1 origin) / py)).
Proof.
  intros Hpx Hpy Hr. apply apply_Ok_inv in Hr as [Hgt ->].
  rewrite apply_Ok by exact Hgt.
  pose proof (guard_nonzero _ _ Hgt) as Hn.
  cbn [ctor x_axis_ y_axis_ normal_ origin_ distance_ v2_0 v2_1] in *.
  rewrite !dot_vdiv.
  f_equal. f_equal; field; split; assumption.
Qed.

Lemma apply_pixel_size_witness :
  apply (ctor world_axes (Vec2 2 4) (Vec2 0 0) 100) (Vec3 1 1 1)
    = Ok (Vec2 (0 + (100 - 0) / 2) (0 + (100 - 0) / 4)).
Proof.
  assert (Hpx : 2 <> 0) by lra.
  assert (Hpy : 4 <> 0) by lra.
  exact (apply_pixel_size world_axes (Vec2 0 0) 100 2 4 (Vec3 1 1 1)
           (Vec2 100 100) Hpx Hpy apply_scenario_diagonal).
Defined.

(** X9: the value (-1, -1) that the array form stores for a beam vector it
    rejects is also a result of the scalar form.  For a coordinate system of
    orthogonal unit vectors, a distance and pixel sizes that are not zero,
    there is a beam vector on which the scalar form returns (-1, -1), while
    it throws on the opposite vector; the array form returns the same
    sequence on the one and on the other. *)
Theorem sentinel_is_a_result (dcs : DetectorCoordinateSystem R)
    (pixel_size origin : vec2 R) (distance : R) :
  orthonormal dcs ->
  distance <> 0 -> v2_0 pixel_size <> 0 -> v2_1 pixel_size <> 0 ->
  let t := ctor dcs pixel_size origin distance in
  exists s1 : vec3 R,
    apply t s1 = Ok (Vec2 (-1) (-1)) /\
    apply t (vscale (-1) s1) = Throw GeometryError /\
    forall fill : vec2 R,
      apply_flex fill t [s1] = apply_flex fill t [vscale (-1) s1].
Proof.
  intros Hdcs Hd Hpx Hpy t.
  exists (detector_point dcs pixel_size origin distance (-1) (-1)).
  pose proof (apply_detector_point dcs pixel_size origin distance (-1) (-1)
                Hdcs Hd Hpx Hpy) as Hok.
  fold t in Hok.
  assert (Hthrow :
    apply t (vscale (-1)
               (detector_point dcs pixel_size origin distance (-1) (-1)))
      = Throw GeometryError).
  { apply apply_Ok_inv in Hok as [Hgt _].
    apply apply_Throw. rewrite dot_vscale. nra. }
  split; [exact Hok|]. split; [exact Hthrow|].
  intros fill. rewrite !apply_flex_map. cbn [fmap list_fmap].
  rewrite Hok, Hthrow. reflexivity.
Qed.

Lemma sentinel_is_a_result_witness :
  exists s1 : vec3 R,
    apply scenario_transform s1 = Ok (Vec2 (-1) (-1)) /\
    apply scenario_transform (vscale (-1) s1) = Throw GeometryError /\
    forall fill : vec2 R,
      apply_flex fill scenario_transform [s1]
        = apply_flex fill scenario_transform [vscale (-1) s1].
Proof.
  assert (Hd : 100 <> 0) by lra.
  assert (Hpx : v2_0 (Vec2 1 1) <> 0) by (cbn; lra).
  assert (Hpy : v2_1 (Vec2 1 1) <> 0) by (cbn; lra).
  exact (sentinel_is_a_result world_axes (Vec2 1 1) (Vec2 0 0) 100
           orthonormal_world_axes Hd Hpx Hpy).
Defined.

(** X10: the constructor keeps the direction of the three vectors of the
    coordinate system and nothing of their lengths: the vectors scaled by
    positive factors give the same transform. *)
Theorem ctor_direction_only (dcs : DetectorCoordinateSystem R)
    (pixel_size origin : vec2 R) (distance kx ky kn : R) :
  kx > 0 -> ky > 0 -> kn > 0 ->
  ctor (scale_axes kx ky kn dcs) pixel_size origin distance
    = ctor dcs pixel_size origin distance.
Proof.
  intros Hkx Hky Hkn. unfold ctor, scale_axes.
  cbn [get_x_axis get_y_axis get_normal].
  rewrite !normalize_vscale_pos by lra. reflexivity.
Qed.

Lemma ctor_direction_only_witness :
  ctor (scale_axes 2 3 4 world_axes) (Vec2 1 1) (Vec2 0 0) 100
    = ctor world_axes (Vec2 1 1) (Vec2 0 0) 100.
Proof.
  assert (Hkx : 2 > 0) by lra.
  assert (Hky : 3 > 0) by lra.
  assert (Hkn : 4 > 0) by lra.
  exact (ctor_direction_only world_axes (Vec2 1 1) (Vec2 0 0) 100 2 3 4
           Hkx Hky Hkn).
Defined.

(** ** The divisions of the constructor *)

Lemma checked_div_Some (a b : R) :
  b <> 0 -> checked_div (Some a) (Some b) = Some (a / b).
Proof.
  intros Hb. unfold checked_div.
  destruct (Req_dec_T b 0) as [Hz|_]; [contradiction|reflexivity].
Qed.

Lemma checked_div_is_Some (x : checked) (b c : R) :
  checked_div x (Some b) = Some c -> b <> 0 /\ exists a : R, x = Some a.
Proof.
  unfold checked_div. destruct x as [a|]; [|discriminate].
  destruct (Req_dec_T b 0) as [Hz|Hnz]; [discriminate|].
  intros _. split; [exact Hnz|]. exists a. reflexivity.
Qed.

Lemma length_checked (v : vec3 R) :
  length (vec3_map Some v : vec3 checked) = Some (length v).
Proof. reflexivity. Qed.

Lemma vdiv_checked (v : vec3 R) (p : R) :
  p <> 0 ->
  vdiv (vec3_map Some v : vec3 checked) (Some p) = vec3_map Some (vdiv v p).
Proof.
  intros Hp. unfold vdiv, vec3_map. cbn [v3_0 v3_1 v3_2].
  cbn [num_div checked_NumType]. rewrite !checked_div_Some by exact Hp.
  reflexivity.
Qed.

Lemma normalize_checked (v : vec3 R) :
  v <> Vec3 0 0 0 ->
  normalize (vec3_map Some v : vec3 checked) = vec3_map Some (normalize v).
Proof.
  intros Hv. unfold normalize. rewrite length_checked.
  apply vdiv_checked. pose proof (length_pos v Hv). lra.
Qed.

Lemma length_zero_vector : length (Vec3 0 0 0 : vec3 R) = 0.
Proof.
  unfold length, length_sq. rewrite dot_exact. cbn.
  replace (0 * 0 + 0 * 0 + 0 * 0) with 0 by ring. apply sqrt_0.
Qed.

(** Where the first component of a normalized and then divided vector is
    defined, the vector is not zero and the divisor is not zero. *)
Lemma vdiv_normalize_defined (v : vec3 R) (p c : R) :
  v3_0 (vdiv (normalize (vec3_map Some v : vec3 checked)) (Some p)) = Some c ->
  v <> Vec3 0 0 0 /\ p <> 0.
Proof.
  unfold normalize. rewrite length_checked.
  unfold vdiv. cbn [v3_0 v3_1 v3_2 vec3_map num_div checked_NumType].
  intros Hc. apply checked_div_is_Some in Hc as [Hp [a Ha]].
  apply checked_div_is_Some in Ha as [HL _].
  split; [|exact Hp].
  intros ->. apply HL, length_zero_vector.
Qed.

Lemma normalize_defined (v : vec3 R) (c : R) :
  v3_0 (normalize (vec3_map Some v : vec3 checked)) = Some c ->
  v <> Vec3 0 0 0.
Proof.
  unfold normalize. rewrite length_checked.
  unfold vdiv. cbn [v3_0 v3_1 v3_2 vec3_map num_div checked_NumType].
  intros Hc. apply checked_div_is_Some in Hc as [HL _].
  intros ->. apply HL, length_zero_vector.
Qed.

(** X11: the constructor checks none of its divisions.  Run in the
    arithmetic that records a division by zero, on a coordinate system, a
    pixel size, an origin and a distance of real numbers, it records none,
    and stores what the exact constructor stores, exactly when the three
    vectors of the coordinate system are not zero and the two pixel sizes
    are not zero. *)
Theorem ctor_divisions (dcs : DetectorCoordinateSystem R)
    (pixel_size origin : vec2 R) (distance : R) :
  ctor (dcs_map Some dcs : DetectorCoordinateSystem checked)
       (vec2_map Some pixel_size) (vec2_map Some origin) (Some distance)
    = transform_map Some (ctor dcs pixel_size origin distance)
  <->
  get_x_axis dcs <> Vec3 0 0 0 /\
  get_y_axis dcs <> Vec3 0 0 0 /\
  get_normal dcs <> Vec3 0 0 0 /\
  v2_0 pixel_size <> 0 /\
  v2_1 pixel_size <> 0.
Proof.
  split.
  - intros Heq.
    pose proof (f_equal (fun t => v3_0 (x_axis_ t)) Heq) as Hx.
    pose proof (f_equal (fun t => v3_0 (y_axis_ t)) Heq) as Hy.
    pose proof (f_equal (fun t => v3_0 (normal_ t)) Heq) as Hn.
    cbn [ctor dcs_map transform_map x_axis_ y_axis_ normal_
         get_x_axis get_y_axis get_normal vec2_map v2_0 v2_1] in Hx, Hy, Hn.
    apply vdiv_normalize_defined in Hx as [Hx Hpx].
    apply vdiv_normalize_defined in Hy as [Hy Hpy].
    apply normalize_defined in Hn.
    repeat split; assumption.
  - intros (Hx & Hy & Hn & Hpx & Hpy).
    unfold ctor, transform_map, dcs_map.
    cbn [get_x_axis get_y_axis get_normal x_axis_ y_axis_ normal_ origin_
         distance_ vec2_map v2_0 v2_1].
    rewrite !normalize_checked by assumption.
    rewrite !vdiv_checked by assumption.
    reflexivity.
Qed.

End Geometry.
